(** * DynamoDB session repository (fastapi_auth_jwt/repository/dynamodb.py)

    A shallow embedding of [SessionModel] and [DynamoDBRepository], and the
    properties of the repository contract proved on it.

    The module is a thin layer over pynamodb, so its behaviour is that of the
    calls it makes.  Python code becomes a computation over a [World]: the
    class attributes of [SessionModel.Meta], the connection pynamodb caches
    on the class, the tables of the remote store, the failures the library
    calls are about to raise, and the log of the calls made.  The pynamodb
    calls ([exists], [create_table], [Model.get], [save], [delete]) are
    modelled by the operation they ask of the store and by its answer:
    - every call goes through the class connection, which pynamodb builds
      from [Meta] on first use and builds again only when [Meta.table_name]
      no longer is the connection's table name;
    - a logged [Request] is one call of the client library; the retries the
      library makes on its own inside a call are not counted, and a failure
      is what the call raises in the end;
    - a call that fails changes no table;
    - item operations need an ACTIVE table; [Model.get] raises
      [DoesNotExist] for a missing item; a put replaces the item of its key.
    The coroutines [get], [set] and [delete] await nothing, so a call is one
    uninterrupted run of its body. *)

From stdpp Require Import gmap strings list fin_maps.

Open Scope string_scope.
Open Scope list_scope.

(** ** Exceptions *)

(** Failures reported by the remote store or by its client library. *)
Inductive StoreError :=
  | ConnectivityError
  | AuthorizationError
  | ThrottlingError
  | ProvisioningError
  | ValidationError
  | ResourceNotFound
  | ResourceInUse
  | TableError.

(** What a Python call can raise here: pynamodb's [DoesNotExist], a local
    input rejection, or any other failure of the store. *)
Inductive Exn :=
  | DoesNotExist
  | InvalidInput
  | StoreFailure (e : StoreError).

Inductive Outcome (A : Type) :=
  | Ok (a : A)
  | Raise (x : Exn).
Arguments Ok {A} a.
Arguments Raise {A} x.

(** ** Configuration and schema binding *)

(** Modelled from the spec: the class [DynamoDBConfig] of config/storage.py,
    through the three attributes [setup] reads: the table name (a string,
    required), the region (a string) and the optional endpoint URL
    override. *)
Record DynamoDBConfig := mkConfig {
  table_name : string;
  region : string;
  endpoint_url : option string
}.

(** [SessionModel.Meta]: class attributes, one copy per process. *)
Record Meta := mkMeta {
  Meta_table_name : string;
  Meta_region : string;
  Meta_host : option string
}.

(** A remote table: endpoint override, region, table name. *)
Definition TableAddr : Type := option string * string * string.

Definition addr_table_name (a : TableAddr) : string := snd a.

Definition addr_of (m : Meta) : TableAddr :=
  (Meta_host m, Meta_region m, Meta_table_name m).

Definition Meta_of_config (c : DynamoDBConfig) : Meta :=
  mkMeta (table_name c) (region c) (endpoint_url c).

(** [os.environ.get("DynamoDBSessionTableName", "session_store")], evaluated
    when the class body runs. *)
Definition default_table_name (environ : gmap string string) : string :=
  default "session_store" (environ !! "DynamoDBSessionTableName").

(** The class body of [Meta]. *)
Definition Meta_initial (environ : gmap string string) : Meta :=
  mkMeta (default_table_name environ) "us-east-1" None.


(** ** The remote store *)

(** A table under creation answers CREATING to [polls] more status requests
    of the waiting loop before it is ACTIVE. *)
Inductive TableStatus :=
  | CREATING (polls : nat)
  | ACTIVE.

Record Table := mkTable {
  status : TableStatus;
  items : gmap string string
}.

Inductive Request :=
  | DescribeTable (a : TableAddr)
  | CreateTable (a : TableAddr)
  | GetItem (a : TableAddr) (key : string)
  | PutItem (a : TableAddr) (key value : string)
  | DeleteItem (a : TableAddr) (key : string).

(** Everything an operation can read or change: the class-level binding, the
    connection cached on the class ([None] until the first call), the tables
    held by the store, how many status polls a fresh table answers CREATING,
    the failures the calls are going to raise (one entry per call, [Some e]
    fails that call), and the calls made so far. *)
Record World := mkWorld {
  meta : Meta;
  connection : option TableAddr;
  tables : gmap TableAddr Table;
  provision_delay : nat;
  faults : list (option StoreError);
  trace : list Request
}.

(** ** Computations: state and exceptions *)

Definition M (A : Type) : Type := World -> Outcome A * World.

Definition ret {A} (a : A) : M A := fun w => (Ok a, w).

Definition raise {A} (x : Exn) : M A := fun w => (Raise x, w).

Definition bind {A B} (c : M A) (k : A -> M B) : M B := fun w =>
  match c w with
  | (Ok a, w') => k a w'
  | (Raise x, w') => (Raise x, w')
  end.

Declare Scope py_scope.
Delimit Scope py_scope with py.
Notation "x <- c ;; k" := (bind c (fun x => k))
  (at level 100, c at next level, right associativity) : py_scope.
Notation "c ;; k" := (bind c (fun _ => k))
  (at level 100, right associativity) : py_scope.
Open Scope py_scope.

(** [try: body except DoesNotExist: handler] *)
Definition try_except_DoesNotExist {A} (body handler : M A) : M A := fun w =>
  match body w with
  | (Raise DoesNotExist, w') => handler w'
  | r => r
  end.

(** [try: body except TableDoesNotExist: handler]; pynamodb raises
    [TableDoesNotExist] for the store's resource-not-found answer. *)
Definition try_except_TableDoesNotExist {A} (body handler : M A) : M A := fun w =>
  match body w with
  | (Raise (StoreFailure ResourceNotFound), w') => handler w'
  | r => r
  end.

Definition read {A} (f : World -> A) : M A := fun w => (Ok (f w), w).

Definition with_meta (m : Meta) (w : World) : World :=
  mkWorld m (connection w) (tables w) (provision_delay w) (faults w) (trace w).

Definition with_connection (c : TableAddr) (w : World) : World :=
  mkWorld (meta w) (Some c) (tables w) (provision_delay w) (faults w) (trace w).

Definition with_table (a : TableAddr) (t : Table) (w : World) : World :=
  mkWorld (meta w) (connection w) (<[a := t]> (tables w)) (provision_delay w)
          (faults w) (trace w).

(** The world once call [r] has been made: recorded, and its answer
    consumed. *)
Definition sent (r : Request) (w : World) : World :=
  mkWorld (meta w) (connection w) (tables w) (provision_delay w)
          (tail (faults w)) (trace w ++ [r]).

Definition set_meta (m : Meta) : M unit := fun w => (Ok tt, with_meta m w).

Definition put_table (a : TableAddr) (t : Table) : M unit := fun w =>
  (Ok tt, with_table a t w).

(** One call of the client library: it is recorded, and it either goes
    through or raises the failure in stock for it. *)
Definition request (r : Request) : M unit := fun w =>
  match faults w with
  | Some e :: _ => (Raise (StoreFailure e), sent r w)
  | _ => (Ok tt, sent r w)
  end.

(** A table serves item requests once it is ACTIVE. *)
Definition active_table (a : TableAddr) : M Table :=
  t <- read (fun w => tables w !! a) ;;
  match t with
  | Some (mkTable ACTIVE its) => ret (mkTable ACTIVE its)
  | _ => raise (StoreFailure ResourceNotFound)
  end.

(** The table the class connection designates in [w]: the cached
    connection while its table name is [Meta.table_name], a connection
    built from [Meta] otherwise. *)
Definition connected (w : World) : TableAddr :=
  match connection w with
  | Some c =>
    if decide (addr_table_name c = Meta_table_name (meta w)) then c
    else addr_of (meta w)
  | None => addr_of (meta w)
  end.

Definition connect (w : World) : World := with_connection (connected w) w.

(** ** SessionModel *)

Record Session := mkSession {
  key : string;
  value : string
}.

Module SessionModel.

(** pynamodb [Model._get_connection]: the connection every call goes
    through, kept on the class. *)
Definition _get_connection : M TableAddr := fun w => (Ok (connected w), connect w).

(** pynamodb [describe_table]: the status request; a missing table is the
    store's resource-not-found answer. *)
Definition describe_table (a : TableAddr) : M Table :=
  request (DescribeTable a) ;;
  t <- read (fun w => tables w !! a) ;;
  match t with
  | Some t => ret t
  | None => raise (StoreFailure ResourceNotFound)
  end.

(** pynamodb [Model.exists]: [True] when the status request is answered,
    [False] when the answer is that there is no such table. *)
Definition exists_ : M bool :=
  try_except_TableDoesNotExist
    (a <- _get_connection ;;
     describe_table a ;;
     ret true)
    (ret false).

(** The polling loop of [create_table(wait=True)]: ask for the status until
    it is ACTIVE.  [n] is the number of polls the store still answers
    CREATING. *)
Fixpoint poll (a : TableAddr) (its : gmap string string) (n : nat) : M unit :=
  request (DescribeTable a) ;;
  match n with
  | 0 => put_table a (mkTable ACTIVE its)
  | S n' => put_table a (mkTable (CREATING n') its) ;; poll a its n'
  end.

(** The loop entered: a table that is not there has no status to report. *)
Definition wait_active (a : TableAddr) : M unit :=
  t <- read (fun w => tables w !! a) ;;
  match t with
  | Some (mkTable (CREATING n) its) => poll a its n
  | Some (mkTable ACTIVE its) => poll a its 0
  | None => request (DescribeTable a) ;; raise (StoreFailure TableError)
  end.

(** pynamodb [TableConnection.create_table]: the creation request.  The
    store refuses to create a table it already has; a new table starts
    empty, in creation. *)
Definition connection_create_table (a : TableAddr) : M unit :=
  request (CreateTable a) ;;
  t <- read (fun w => tables w !! a) ;;
  match t with
  | Some _ => raise (StoreFailure ResourceInUse)
  | None =>
    d <- read provision_delay ;;
    put_table a (mkTable (CREATING d) ∅)
  end.

(** pynamodb [Model.create_table]: create unless the table exists, then
    wait for it when asked to. *)
Definition create_table (wait : bool) : M unit :=
  e <- exists_ ;;
  (if e then ret tt
   else
     a <- _get_connection ;;
     connection_create_table a) ;;
  if wait then (a <- _get_connection ;; wait_active a) else ret tt.

(** pynamodb [Model.get(hash_key)]: a point lookup; a missing item raises
    [DoesNotExist]. *)
Definition get (k : string) : M Session :=
  a <- _get_connection ;;
  request (GetItem a k) ;;
  t <- active_table a ;;
  match items t !! k with
  | Some v => ret (mkSession k v)
  | None => raise DoesNotExist
  end.

(** pynamodb [Model.save]: an unconditional put. *)
Definition save (s : Session) : M unit :=
  a <- _get_connection ;;
  request (PutItem a (key s) (value s)) ;;
  t <- active_table a ;;
  put_table a (mkTable ACTIVE (<[key s := value s]> (items t))).

(** pynamodb [Model.delete]: an unconditional delete by key. *)
Definition delete (s : Session) : M unit :=
  a <- _get_connection ;;
  request (DeleteItem a (key s)) ;;
  t <- active_table a ;;
  put_table a (mkTable ACTIVE (base.delete (key s) (items t))).

(** [SessionModel.setup(config)] *)
Definition setup (config : DynamoDBConfig) : M unit :=
  m <- read meta ;;
  set_meta (mkMeta (table_name config) (Meta_region m) (Meta_host m)) ;;
  m <- read meta ;;
  set_meta (mkMeta (Meta_table_name m) (region config) (Meta_host m)) ;;
  m <- read meta ;;
  set_meta (mkMeta (Meta_table_name m) (Meta_region m) (endpoint_url config)) ;;
  e <- exists_ ;;
  if negb e then create_table true else ret tt.

End SessionModel.

(** ** DynamoDBRepository *)

Record Repository := mkRepository {
  _config : DynamoDBConfig
}.

Module DynamoDBRepository.

(** [DynamoDBRepository(config)] *)
Definition __init__ (config : DynamoDBConfig) : M Repository :=
  let self := mkRepository config in
  SessionModel.setup config ;;
  ret self.

(** [async def get(self, key)] *)
Definition get (self : Repository) (k : string) : M (option string) :=
  try_except_DoesNotExist
    (session <- SessionModel.get k ;;
     ret (Some (value session)))
    (ret None).

(** [async def set(self, key, value)] *)
Definition set (self : Repository) (k v : string) : M unit :=
  let session := mkSession k v in
  SessionModel.save session.

(** [async def delete(self, key)] *)
Definition delete (self : Repository) (k : string) : M unit :=
  try_except_DoesNotExist
    (session <- SessionModel.get k ;;
     SessionModel.delete session)
    (ret tt).

End DynamoDBRepository.

(** ** Vocabulary of the statements, and example worlds *)

(** The first failure among the next [n] answers. *)
Fixpoint first_fault (n : nat) (fs : list (option StoreError)) : option StoreError :=
  match n, fs with
  | 0, _ => None
  | S _, [] => None
  | S n', None :: fs' => first_fault n' fs'
  | S _, Some e :: _ => Some e
  end.

(** The next [n] calls go through. *)
Definition quiet (n : nat) (fs : list (option StoreError)) : bool :=
  match first_fault n fs with
  | None => true
  | Some _ => false
  end.

(** The table the connection designates exists and is ACTIVE. *)
Definition ready (w : World) : bool :=
  match tables w !! connected w with
  | Some (mkTable ACTIVE _) => true
  | _ => false
  end.

(** The items of that table (none if there is no such table). *)
Definition bound_items (w : World) : gmap string string :=
  match tables w !! connected w with
  | Some t => items t
  | None => ∅
  end.

(** The calls a computation makes from [w]. *)
Definition requests_of {A} (c : M A) (w : World) : list Request :=
  drop (length (trace w)) (trace (snd (c w))).

Definition result_of {A} (c : M A) (w : World) : Outcome A := fst (c w).


Definition outcome_of_fault {A} (a : A) (f : option StoreError) : Outcome A :=
  match f with
  | None => Ok a
  | Some e => Raise (StoreFailure e)
  end.

(** An existence check takes the answer "no such table" for [False]. *)
Definition forgive (f : option StoreError) : option StoreError :=
  match f with
  | Some ResourceNotFound => None
  | _ => f
  end.

(** The answers as they count for [create_table] of a missing table, whose
    first call is an existence check ... *)
Definition forgive_head (fs : list (option StoreError)) : list (option StoreError) :=
  match fs with
  | f :: fs' => forgive f :: fs'
  | [] => []
  end.

(** ... and for [setup], whose first two calls are. *)
Definition forgive_checks (fs : list (option StoreError)) : list (option StoreError) :=
  match fs with
  | f :: fs' => forgive f :: forgive_head fs'
  | [] => []
  end.

Ltac run :=
  cbv beta iota zeta delta
    [bind ret raise read put_table set_meta request with_table with_meta
     with_connection connect sent active_table
     try_except_TableDoesNotExist
     SessionModel._get_connection SessionModel.describe_table
     SessionModel.wait_active
     meta connection tables provision_delay faults trace tail].

(** A process that has not used [SessionModel] yet, whose environment does
    not set the table-name variable, and a store with no table, where a new
    table answers CREATING twice before it is ACTIVE. *)
Definition world_fresh : World := mkWorld (Meta_initial ∅) None ∅ 2 [] [].

Definition cfg_sessions : DynamoDBConfig :=
  mkConfig "session_store" "us-east-1" None.

Definition cfg_other : DynamoDBConfig :=
  mkConfig "other_sessions" "eu-west-1" (Some "http://localhost:8000").


Definition repo_sessions : Repository := mkRepository cfg_sessions.

(** The store once [DynamoDBRepository(cfg_sessions)] has returned. *)
Definition world_ready : World :=
  snd (DynamoDBRepository.__init__ cfg_sessions world_fresh).

(** ... and once [set("tok-123", "u1")] has returned. *)
Definition world_tok : World :=
  snd (DynamoDBRepository.set repo_sessions "tok-123" "u1" world_ready).

(** What the point lookup answers in [w]. *)
Definition lookup_answer (k : string) (w : World) : Outcome Session :=
  match faults w with
  | Some e :: _ => Raise (StoreFailure e)
  | _ =>
    match tables w !! connected w with
    | Some (mkTable ACTIVE its) =>
      match its !! k with
      | Some v => Ok (mkSession k v)
      | None => Raise DoesNotExist
      end
    | _ => Raise (StoreFailure ResourceNotFound)
    end
  end.

(** What a write ([PutItem] or [DeleteItem]) answers in [w]. *)
Definition write_answer (w : World) : Outcome unit :=
  match faults w with
  | Some e :: _ => Raise (StoreFailure e)
  | _ => if ready w then Ok tt else Raise (StoreFailure ResourceNotFound)
  end.

Definition written (f : gmap string string -> gmap string string) (w : World) : World :=
  match write_answer w with
  | Ok _ => with_table (connected w) (mkTable ACTIVE (f (bound_items w))) w
  | Raise _ => w
  end.

(** What an existence check answers in [w]. *)
Definition exists_answer (w : World) : Outcome bool :=
  match faults w with
  | Some ResourceNotFound :: _ => Ok false
  | Some e :: _ => Raise (StoreFailure e)
  | _ => Ok (bool_decide (is_Some (tables w !! connected w)))
  end.

(** The store is unreachable: its next two requests fail. *)
Definition world_down : World :=
  mkWorld (meta world_tok) (connection world_tok) (tables world_tok) 2
    [Some ConnectivityError; Some ConnectivityError] [].

(** The lookup is served, the delete request is throttled. *)
Definition world_throttled : World :=
  mkWorld (meta world_tok) (connection world_tok) (tables world_tok) 2
    [None; Some ThrottlingError] [].

(** [w'] is [w] with calls appended to the log, and tables changed at most
    at address [a]; binding and connection are the same. *)
Definition touches_only (a : TableAddr) (w w' : World) : Prop :=
  meta w' = meta w
  /\ connection w' = connection w
  /\ (exists l, trace w' = trace w ++ l)
  /\ forall b, b <> a -> tables w' !! b = tables w !! b.

(** A table being created, found by a process that did not create it. *)
Definition world_creating : World :=
  mkWorld (Meta_initial ∅) None
    {[ addr_of (Meta_of_config cfg_sessions) := mkTable (CREATING 3) ∅ ]} 2 [] [].

(** One call on the repository, as a caller issues it. *)
Inductive Call :=
  | CallGet (k : string)
  | CallSet (k v : string)
  | CallDelete (k : string).

(** What the call returns to the caller ([set] and [delete] return [None]). *)
Definition perform (self : Repository) (c : Call) : M (option string) :=
  match c with
  | CallGet k => DynamoDBRepository.get self k
  | CallSet k v => DynamoDBRepository.set self k v ;; ret None
  | CallDelete k => DynamoDBRepository.delete self k ;; ret None
  end.

(** A caller issuing calls one after the other, collecting what they
    return; the first exception ends the sequence. *)
Fixpoint perform_all (self : Repository) (cs : list Call) : M (list (option string)) :=
  match cs with
  | [] => ret []
  | c :: cs' =>
    r <- perform self c ;;
    rs <- perform_all self cs' ;;
    ret (r :: rs)
  end.

(** The same calls on a plain in-memory dictionary. *)
Definition dict_step (c : Call) (d : gmap string string)
  : option string * gmap string string :=
  match c with
  | CallGet k => (d !! k, d)
  | CallSet k v => (None, <[k := v]> d)
  | CallDelete k => (None, base.delete k d)
  end.

Fixpoint dict_run (cs : list Call) (d : gmap string string)
  : list (option string) * gmap string string :=
  match cs with
  | [] => ([], d)
  | c :: cs' =>
    let (r, d') := dict_step c d in
    let (rs, d'') := dict_run cs' d' in
    (r :: rs, d'')
  end.

(** [w'] has the binding of [w], the same tables, and every table in the
    status it had. *)
Definition same_schema (w w' : World) : Prop :=
  meta w' = meta w
  /\ forall b, status <$> (tables w' !! b) = status <$> (tables w !! b).

(** A world whose cached connection is the one in use. *)
Definition live (w : World) : Prop := connection w = Some (connected w).

Ltac open_connection :=
  cbv beta iota zeta delta [bind SessionModel._get_connection connect].

(** ** Stepping lemmas *)

Lemma first_fault_nil n : first_fault n [] = None.
Proof. by destruct n. Qed.

Lemma quiet_step n fs :
  quiet (S n) fs = true ->
  (forall e fs', fs <> Some e :: fs') /\ quiet n (tail fs) = true.
Proof.
  unfold quiet. destruct fs as [|[e|] fs']; simpl; intros H; try discriminate.
  - split; [congruence | by destruct n].
  - split; [congruence | done].
Qed.

Lemma quiet_le n m fs : m <= n -> quiet n fs = true -> quiet m fs = true.
Proof.
  unfold quiet. revert m fs. induction n as [|n IH]; intros m fs Hle H.
  - by replace m with 0 by lia.
  - destruct m as [|m]; [done|].
    destruct fs as [|[e|] fs']; simpl in *; try done.
    apply IH; [lia | done].
Qed.

Lemma quiet_tail n fs : quiet (S n) fs = true -> quiet n (tail fs) = true.
Proof. by intros [_ ?]%quiet_step. Qed.

Lemma quiet_drop n m fs : quiet (m + n) fs = true -> quiet n (drop m fs) = true.
Proof.
  unfold quiet. revert fs. induction m as [|m IH]; intros fs; [done|].
  destruct fs as [|[e|] fs']; simpl; try done.
  - intros _. by rewrite first_fault_nil.
  - apply IH.
Qed.

Lemma request_served r w :
  (forall e fs', faults w <> Some e :: fs') -> request r w = (Ok tt, sent r w).
Proof.
  intros H. unfold request. destruct (faults w) as [|[e|] fs'] eqn:E; try done.
  by destruct (H e fs').
Qed.

(** The connection and what it designates. *)

Lemma connected_name w : addr_table_name (connected w) = Meta_table_name (meta w).
Proof.
  unfold connected. destruct (connection w) as [c|]; [|done].
  by case_decide.
Qed.

Lemma connected_with_connection w :
  connected (with_connection (connected w) w) = connected w.
Proof.
  unfold connected at 1. simpl. rewrite connected_name.
  by rewrite decide_True.
Qed.

Lemma connected_connect w : connected (connect w) = connected w.
Proof. apply connected_with_connection. Qed.

Lemma connected_sent r w : connected (sent r w) = connected w.
Proof. done. Qed.

Lemma connected_with_table a t w : connected (with_table a t w) = connected w.
Proof. done. Qed.

Lemma connect_connect w : connect (connect w) = connect w.
Proof. unfold connect at 1. by rewrite connected_connect. Qed.

Lemma connect_sent r w : connect (sent r (connect w)) = sent r (connect w).
Proof. unfold connect at 1. by rewrite connected_sent, connected_connect. Qed.

Lemma connected_fresh w :
  connection w = None -> connected w = addr_of (meta w).
Proof. unfold connected. by intros ->. Qed.

Lemma connected_other_name w c :
  connection w = Some c -> addr_table_name c <> Meta_table_name (meta w) ->
  connected w = addr_of (meta w).
Proof. unfold connected. intros -> Hne. by rewrite decide_False. Qed.


Lemma connected_live w :
  connection w = Some (connected w) \/ connection w = None
  \/ exists c, connection w = Some c
               /\ addr_table_name c <> Meta_table_name (meta w).
Proof.
  unfold connected. destruct (connection w) as [c|]; [|by right; left].
  case_decide; [by left | right; right; by exists c].
Qed.

Lemma ready_connect w : ready (connect w) = ready w.
Proof. unfold ready. by rewrite connected_connect. Qed.

Lemma bound_items_connect w : bound_items (connect w) = bound_items w.
Proof. unfold bound_items. by rewrite connected_connect. Qed.

Lemma ready_inv w :
  ready w = true ->
  exists its, tables w !! connected w = Some (mkTable ACTIVE its).
Proof.
  unfold ready. destruct (tables w !! connected w) as [[[n|] its]|]; try done.
  by exists its.
Qed.

Lemma bound_items_sent r w : bound_items (sent r w) = bound_items w.
Proof. done. Qed.

Lemma ready_put w a its :
  a = connected w -> ready (with_table a (mkTable ACTIVE its) w) = true.
Proof.
  intros ->. unfold ready. rewrite connected_with_table. simpl.
  by rewrite lookup_insert_eq.
Qed.

Lemma bound_items_put w a st its :
  a = connected w -> bound_items (with_table a (mkTable st its) w) = its.
Proof.
  intros ->. unfold bound_items. rewrite connected_with_table. simpl.
  by rewrite lookup_insert_eq.
Qed.

(** ** The operations on any world *)

Lemma lookup_run k w :
  SessionModel.get k w
  = (lookup_answer k w, sent (GetItem (connected w) k) (connect w)).
Proof.
  unfold SessionModel.get, lookup_answer, connect, SessionModel._get_connection.
  open_connection.
  generalize (connected w) as a. intros a. destruct w as [m c tb d fs tr]. run.
  destruct fs as [|[e|] fs']; try done;
    destruct (tb !! a) as [[[n|] its]|]; try done;
    simpl; by destruct (its !! k).
Qed.

Lemma connected_written f w : connected (written f w) = connected w.
Proof. unfold written. by destruct (write_answer w). Qed.

Lemma save_run s w :
  SessionModel.save s w
  = (write_answer w,
     sent (PutItem (connected w) (key s) (value s))
       (connect (written (insert (key s) (value s)) w))).
Proof.
  unfold connect. rewrite connected_written.
  unfold SessionModel.save, written, write_answer, ready, bound_items.
  open_connection.
  generalize (connected w) as a. intros a. destruct w as [m c tb d fs tr]. run.
  destruct fs as [|[e|] fs']; try done;
    by destruct (tb !! a) as [[[n|] its]|].
Qed.

Lemma delete_item_run s w :
  SessionModel.delete s w
  = (write_answer w,
     sent (DeleteItem (connected w) (key s))
       (connect (written (base.delete (key s)) w))).
Proof.
  unfold connect. rewrite connected_written.
  unfold SessionModel.delete, written, write_answer, ready, bound_items.
  open_connection.
  generalize (connected w) as a. intros a. destruct w as [m c tb d fs tr]. run.
  destruct fs as [|[e|] fs']; try done;
    by destruct (tb !! a) as [[[n|] its]|].
Qed.

Lemma get_run self k w :
  DynamoDBRepository.get self k w
  = (match lookup_answer k w with
     | Ok s => Ok (Some (value s))
     | Raise DoesNotExist => Ok None
     | Raise x => Raise x
     end,
     sent (GetItem (connected w) k) (connect w)).
Proof.
  unfold DynamoDBRepository.get, try_except_DoesNotExist. unfold bind.
  rewrite lookup_run. by destruct (lookup_answer k w) as [s|[| |e]].
Qed.

Lemma set_run self k v w :
  DynamoDBRepository.set self k v w
  = (write_answer w,
     sent (PutItem (connected w) k v) (connect (written (insert k v) w))).
Proof. unfold DynamoDBRepository.set. by rewrite save_run. Qed.

Lemma lookup_answer_key k w s : lookup_answer k w = Ok s -> key s = k.
Proof.
  unfold lookup_answer. destruct (faults w) as [|[e|] fs']; try done;
    destruct (tables w !! connected w) as [[[n|] its]|]; try done;
    destruct (its !! k); by intros [= <-].
Qed.

Lemma write_answer_raises w x :
  write_answer w = Raise x -> exists e, x = StoreFailure e.
Proof.
  unfold write_answer.
  destruct (faults w) as [|[e|] fs']; try destruct (ready w); try done;
    intros [= <-]; by eexists.
Qed.

Lemma delete_run self k w :
  DynamoDBRepository.delete self k w
  = match lookup_answer k w with
    | Ok s =>
      let w1 := sent (GetItem (connected w) k) (connect w) in
      (write_answer w1,
       sent (DeleteItem (connected w) k) (connect (written (base.delete k) w1)))
    | Raise DoesNotExist => (Ok tt, sent (GetItem (connected w) k) (connect w))
    | Raise x => (Raise x, sent (GetItem (connected w) k) (connect w))
    end.
Proof.
  unfold DynamoDBRepository.delete, try_except_DoesNotExist. unfold bind.
  rewrite lookup_run.
  destruct (lookup_answer k w) as [s|[| |e]] eqn:E; try done.
  rewrite delete_item_run, (lookup_answer_key k w s E).
  rewrite connected_sent, connected_connect. cbv zeta.
  destruct (write_answer _) as [[]|x] eqn:Ew; [done|].
  by apply write_answer_raises in Ew as [e ->].
Qed.

Lemma written_trace f w : trace (written f w) = trace w.
Proof. unfold written. by destruct (write_answer w). Qed.

Lemma written_ok f w :
  write_answer w = Ok tt ->
  written f w = with_table (connected w) (mkTable ACTIVE (f (bound_items w))) w.
Proof. unfold written. by intros ->. Qed.

Lemma lookup_result k w : result_of (SessionModel.get k) w = lookup_answer k w.
Proof. unfold result_of. by rewrite lookup_run. Qed.

Lemma requests_of_app {A} (c : M A) (w : World) (l : list Request) :
  trace (snd (c w)) = trace w ++ l -> requests_of c w = l.
Proof. unfold requests_of. intros ->. apply drop_app_length. Qed.

Lemma get_requests self k w :
  requests_of (DynamoDBRepository.get self k) w = [GetItem (connected w) k].
Proof. apply requests_of_app. by rewrite get_run. Qed.

Lemma set_requests self k v w :
  requests_of (DynamoDBRepository.set self k v) w
  = [PutItem (connected w) k v].
Proof.
  apply requests_of_app. rewrite set_run. simpl. by rewrite written_trace.
Qed.

Lemma delete_requests self k w :
  requests_of (DynamoDBRepository.delete self k) w
  = match result_of (SessionModel.get k) w with
    | Ok _ => [GetItem (connected w) k; DeleteItem (connected w) k]
    | Raise _ => [GetItem (connected w) k]
    end.
Proof.
  apply requests_of_app. rewrite delete_run, lookup_result.
  destruct (lookup_answer k w) as [s|[| |e]]; try done.
  simpl. rewrite written_trace. simpl. by rewrite <- app_assoc.
Qed.

(** ** Results and failures *)

Lemma get_result self k w :
  result_of (DynamoDBRepository.get self k) w
  = match result_of (SessionModel.get k) w with
    | Ok s => Ok (Some (value s))
    | Raise DoesNotExist => Ok None
    | Raise x => Raise x
    end.
Proof. unfold result_of at 1. by rewrite get_run, lookup_result. Qed.

Lemma set_result self k v w :
  result_of (DynamoDBRepository.set self k v) w = write_answer w.
Proof. unfold result_of. by rewrite set_run. Qed.

Lemma delete_result self k w :
  result_of (DynamoDBRepository.delete self k) w
  = match result_of (SessionModel.get k) w with
    | Ok s => write_answer (sent (GetItem (connected w) k) (connect w))
    | Raise DoesNotExist => Ok tt
    | Raise x => Raise x
    end.
Proof.
  unfold result_of at 1. rewrite delete_run, lookup_result.
  by destruct (lookup_answer k w) as [s|[| |e]].
Qed.

Lemma lookup_answer_failed k w e fs :
  faults w = Some e :: fs -> lookup_answer k w = Raise (StoreFailure e).
Proof. unfold lookup_answer. by intros ->. Qed.

Lemma write_answer_failed w e fs :
  faults w = Some e :: fs -> write_answer w = Raise (StoreFailure e).
Proof. unfold write_answer. by intros ->. Qed.

Lemma lookup_answer_ok k w s :
  lookup_answer k w = Ok s ->
  quiet 1 (faults w) = true /\ ready w = true
  /\ s = mkSession k (value s) /\ bound_items w !! k = Some (value s).
Proof.
  unfold lookup_answer, quiet, ready, bound_items.
  destruct (faults w) as [|[e|] fs']; try done;
    destruct (tables w !! connected w) as [[[n|] its]|]; try done;
    simpl; destruct (its !! k) eqn:E; try done; by intros [= <-].
Qed.

Lemma lookup_answer_absent k w :
  lookup_answer k w = Raise DoesNotExist ->
  quiet 1 (faults w) = true /\ ready w = true /\ bound_items w !! k = None.
Proof.
  unfold lookup_answer, quiet, ready, bound_items.
  destruct (faults w) as [|[e|] fs']; try done;
    destruct (tables w !! connected w) as [[[n|] its]|]; try done;
    simpl; by destruct (its !! k) eqn:E.
Qed.

Lemma lookup_answer_served k w :
  ready w = true -> quiet 1 (faults w) = true ->
  lookup_answer k w
  = match bound_items w !! k with
    | Some v => Ok (mkSession k v)
    | None => Raise DoesNotExist
    end.
Proof.
  intros [its Hr]%ready_inv [Hq _]%quiet_step.
  unfold lookup_answer, bound_items. rewrite Hr. simpl.
  destruct (faults w) as [|[e|] fs'] eqn:E; try done. by destruct (Hq e fs').
Qed.

Lemma write_answer_served w :
  ready w = true -> quiet 1 (faults w) = true -> write_answer w = Ok tt.
Proof.
  intros Hr [Hq _]%quiet_step. unfold write_answer. rewrite Hr.
  destruct (faults w) as [|[e|] fs'] eqn:E; try done. by destruct (Hq e fs').
Qed.

Lemma write_answer_ok w :
  write_answer w = Ok tt -> quiet 1 (faults w) = true /\ ready w = true.
Proof.
  unfold write_answer, quiet.
  destruct (faults w) as [|[e|] fs']; try done; by destruct (ready w).
Qed.

Lemma lookup_answer_raises k w x :
  lookup_answer k w = Raise x -> x = DoesNotExist \/ exists e, x = StoreFailure e.
Proof.
  unfold lookup_answer.
  destruct (faults w) as [|[e|] fs'];
    try (destruct (tables w !! connected w) as [[[n|] its]|];
         try destruct (its !! k));
    try done; intros [= <-]; eauto.
Qed.

Lemma ready_sent r w : ready (sent r w) = ready w.
Proof. done. Qed.

Create Rewrite HintDb world.
#[local] Hint Rewrite ready_sent ready_connect bound_items_sent bound_items_connect
  connected_sent connected_connect connected_with_table : world.

(** What the three operations do when the store serves them. *)

Lemma get_served self k w :
  ready w = true -> quiet 1 (faults w) = true ->
  DynamoDBRepository.get self k w
  = (Ok (bound_items w !! k), sent (GetItem (connected w) k) (connect w)).
Proof.
  intros Hr Hq. rewrite get_run, (lookup_answer_served k w Hr Hq).
  by destruct (bound_items w !! k).
Qed.

Lemma set_served self k v w :
  ready w = true -> quiet 1 (faults w) = true ->
  DynamoDBRepository.set self k v w
  = (Ok tt,
     sent (PutItem (connected w) k v)
       (connect (with_table (connected w)
                   (mkTable ACTIVE (<[k := v]> (bound_items w))) w))).
Proof.
  intros Hr Hq. pose proof (write_answer_served w Hr Hq) as Ha.
  by rewrite set_run, (written_ok _ w Ha), Ha.
Qed.

Lemma delete_served_absent self k w :
  ready w = true -> quiet 1 (faults w) = true -> bound_items w !! k = None ->
  DynamoDBRepository.delete self k w
  = (Ok tt, sent (GetItem (connected w) k) (connect w)).
Proof.
  intros Hr Hq Hk. by rewrite delete_run, (lookup_answer_served k w Hr Hq), Hk.
Qed.

Lemma delete_served_present self k v w :
  ready w = true -> quiet 2 (faults w) = true -> bound_items w !! k = Some v ->
  DynamoDBRepository.delete self k w
  = (Ok tt,
     sent (DeleteItem (connected w) k)
       (connect (with_table (connected w)
                   (mkTable ACTIVE (base.delete k (bound_items w)))
                   (sent (GetItem (connected w) k) (connect w))))).
Proof.
  intros Hr Hq Hk. pose proof (quiet_le 2 1 _ ltac:(lia) Hq) as Hq1.
  apply quiet_tail in Hq.
  rewrite delete_run, (lookup_answer_served k w Hr Hq1), Hk. cbv zeta.
  assert (Ha : write_answer (sent (GetItem (connected w) k) (connect w)) = Ok tt).
  { apply write_answer_served; [by rewrite ready_sent, ready_connect | done]. }
  rewrite Ha, (written_ok _ _ Ha).
  by rewrite connected_sent, connected_connect, bound_items_sent,
    bound_items_connect.
Qed.

(** The state after a served write. *)

Lemma ready_after_put r w a its :
  a = connected w ->
  ready (sent r (connect (with_table a (mkTable ACTIVE its) w))) = true.
Proof. intros ->. rewrite ready_sent, ready_connect. by apply ready_put. Qed.

Lemma bound_items_after_put r w a st its :
  a = connected w ->
  bound_items (sent r (connect (with_table a (mkTable st its) w))) = its.
Proof.
  intros ->. rewrite bound_items_sent, bound_items_connect.
  by apply bound_items_put.
Qed.

(** ** The repository contract *)

(** C1: in a world whose bound table is ACTIVE (what construction leaves
    behind) and where the store serves the two requests, [set(k, v)] returns
    and the [get(k)] that follows returns exactly [v]. *)
Theorem set_then_get (self : Repository) (k v : string) (w : World) :
  ready w = true -> quiet 2 (faults w) = true ->
  exists w1 w2,
    DynamoDBRepository.set self k v w = (Ok tt, w1)
    /\ DynamoDBRepository.get self k w1 = (Ok (Some v), w2).
Proof.
  intros Hr Hq. pose proof (quiet_le 2 1 _ ltac:(lia) Hq) as Hq1.
  apply quiet_step in Hq as [_ Hq2].
  rewrite (set_served self k v w Hr Hq1). eexists _, _. split; [done|].
  rewrite get_served; [| by apply ready_after_put | done].
  rewrite bound_items_after_put by done. by rewrite lookup_insert_eq.
Qed.

Lemma set_then_get_witness :
  exists w1 w2,
    DynamoDBRepository.set repo_sessions "tok-123" "u1" world_ready = (Ok tt, w1)
    /\ DynamoDBRepository.get repo_sessions "tok-123" w1 = (Ok (Some "u1"), w2).
Proof.
  apply (set_then_get repo_sessions "tok-123" "u1" world_ready);
    vm_compute; reflexivity.
Defined.

(** C4: [set(k, v1)], [set(k, v2)], [get(k)] returns [v2]; the table after
    the two writes is the one a single [set(k, v2)] would have produced, so
    nothing of [v1] is left and [k] has one record. *)
Theorem last_write_wins (self : Repository) (k v1 v2 : string) (w : World) :
  ready w = true -> quiet 3 (faults w) = true ->
  exists w1 w2 w3,
    DynamoDBRepository.set self k v1 w = (Ok tt, w1)
    /\ DynamoDBRepository.set self k v2 w1 = (Ok tt, w2)
    /\ DynamoDBRepository.get self k w2 = (Ok (Some v2), w3)
    /\ bound_items w2 = <[k := v2]> (bound_items w)
    /\ tables w2 = tables (snd (DynamoDBRepository.set self k v2 w)).
Proof.
  intros Hr Hq. pose proof (quiet_le 3 1 _ ltac:(lia) Hq) as Hq1.
  apply quiet_step in Hq as [_ Hq]. pose proof (quiet_le 2 1 _ ltac:(lia) Hq) as Hq2.
  apply quiet_step in Hq as [_ Hq3].
  rewrite (set_served self k v1 w Hr Hq1). eexists _, _, _.
  split; [done|].
  rewrite (set_served self k v2 w Hr Hq1).
  rewrite set_served; [| by apply ready_after_put | done].
  rewrite bound_items_after_put by done. rewrite insert_insert_eq.
  split; [done|].
  rewrite get_served; [| apply ready_after_put | done].
  2: { by rewrite connected_sent, connected_connect, connected_with_table. }
  rewrite bound_items_after_put.
  2: { by rewrite connected_sent, connected_connect, connected_with_table. }
  rewrite lookup_insert_eq.
  split; [done|]. split; [done|].
  rewrite connected_sent, connected_connect, connected_with_table. simpl.
  by rewrite insert_insert_eq.
Qed.

Lemma last_write_wins_witness :
  exists w1 w2 w3,
    DynamoDBRepository.set repo_sessions "tok-123" "u1" world_ready = (Ok tt, w1)
    /\ DynamoDBRepository.set repo_sessions "tok-123" "u2" w1 = (Ok tt, w2)
    /\ DynamoDBRepository.get repo_sessions "tok-123" w2 = (Ok (Some "u2"), w3)
    /\ bound_items w2 = <["tok-123" := "u2"]> (bound_items world_ready)
    /\ tables w2
       = tables (snd (DynamoDBRepository.set repo_sessions "tok-123" "u2" world_ready)).
Proof.
  apply (last_write_wins repo_sessions "tok-123" "u1" "u2" world_ready);
    vm_compute; reflexivity.
Defined.

(** C3: [delete(k)] on a key without a record returns normally and leaves
    the binding and every table as they were; two [delete(k)] in a row both
    return normally, whether or not [k] had a record, and the [get(k)] that
    follows returns [None]. *)
Theorem delete_idempotent (self : Repository) (k : string) (w : World) :
  ready w = true -> quiet 4 (faults w) = true ->
  (bound_items w !! k = None ->
   exists w1, DynamoDBRepository.delete self k w = (Ok tt, w1)
              /\ tables w1 = tables w /\ meta w1 = meta w)
  /\ exists w1 w2 w3,
       DynamoDBRepository.delete self k w = (Ok tt, w1)
       /\ DynamoDBRepository.delete self k w1 = (Ok tt, w2)
       /\ tables w2 = tables w1
       /\ DynamoDBRepository.get self k w2 = (Ok None, w3).
Proof.
  intros Hr Hq. pose proof (quiet_le 4 1 _ ltac:(lia) Hq) as Hq1.
  pose proof (quiet_le 4 2 _ ltac:(lia) Hq) as Hq12.
  apply quiet_step in Hq as [_ Hq]. pose proof (quiet_le 3 1 _ ltac:(lia) Hq) as Hq2.
  apply quiet_step in Hq as [_ Hq]. pose proof (quiet_le 2 1 _ ltac:(lia) Hq) as Hq3.
  apply quiet_step in Hq as [_ Hq4].
  split.
  - intros Hk. rewrite (delete_served_absent self k w Hr Hq1 Hk). by eexists.
  - destruct (bound_items w !! k) as [v|] eqn:Hk.
    + rewrite (delete_served_present self k v w Hr Hq12 Hk). eexists _, _, _.
      split; [done|].
      assert (Hc : connected w = connected (sent (GetItem (connected w) k) (connect w)))
        by (by rewrite connected_sent, connected_connect).
      rewrite delete_served_absent.
      2: { by apply ready_after_put. }
      2: done.
      2: { rewrite bound_items_after_put by exact Hc. apply lookup_delete_eq. }
      split; [done|]. split; [done|].
      rewrite get_served;
        [| by rewrite ready_sent, ready_connect, ready_after_put | done].
      rewrite bound_items_sent, bound_items_connect.
      rewrite bound_items_after_put by exact Hc.
      by rewrite lookup_delete_eq.
    + rewrite (delete_served_absent self k w Hr Hq1 Hk). eexists _, _, _.
      split; [done|].
      rewrite delete_served_absent;
        [| by rewrite ready_sent, ready_connect | done
         | by rewrite bound_items_sent, bound_items_connect].
      split; [done|]. split; [done|].
      rewrite get_served;
        [| by autorewrite with world | exact Hq3].
      autorewrite with world. by rewrite Hk.
Qed.

Lemma delete_idempotent_witness :
  exists w1 w2 w3,
    DynamoDBRepository.delete repo_sessions "tok-123" world_tok = (Ok tt, w1)
    /\ DynamoDBRepository.delete repo_sessions "tok-123" w1 = (Ok tt, w2)
    /\ tables w2 = tables w1
    /\ DynamoDBRepository.get repo_sessions "tok-123" w2 = (Ok None, w3).
Proof.
  apply (delete_idempotent repo_sessions "tok-123" world_tok);
    vm_compute; reflexivity.
Defined.

(** ** Calls per operation *)

(** C5, as the code has it: [get] makes one call of the client library and
    [set] makes one; [delete] makes the lookup and, exactly when the lookup
    returned a record, one delete call after it.  No call is made twice. *)
Theorem round_trips_per_call (self : Repository) (k v : string) (w : World) :
  let a := connected w in
  requests_of (DynamoDBRepository.get self k) w = [GetItem a k]
  /\ requests_of (DynamoDBRepository.set self k v) w = [PutItem a k v]
  /\ requests_of (DynamoDBRepository.delete self k) w
     = match result_of (SessionModel.get k) w with
       | Ok _ => [GetItem a k; DeleteItem a k]
       | Raise _ => [GetItem a k]
       end.
Proof.
  split; [apply get_requests | split; [apply set_requests | apply delete_requests]].
Qed.

(** C5 as stated fails: [delete] of a key that has a record makes two
    calls, the lookup and the delete, each of them at least one round
    trip. *)
Lemma delete_takes_two_round_trips :
  requests_of (DynamoDBRepository.delete repo_sessions "tok-123") world_tok
  = [GetItem (None, "us-east-1", "session_store") "tok-123";
     DeleteItem (None, "us-east-1", "session_store") "tok-123"]
  /\ length (requests_of (DynamoDBRepository.delete repo_sessions "tok-123")
               world_tok) <> 1.
Proof. split; [by vm_compute | vm_compute; lia]. Qed.

(** ** Error propagation *)

(** C2: [get] turns the lookup's [DoesNotExist] into [None] and never raises
    it; any other exception of the lookup leaves [get] and [delete] as it
    is, after that one request; a failure the store reports for the request
    of [get], [set] or [delete], or for the delete request that follows a
    successful lookup, is what the call raises, with no further request; and
    a call that returns normally had every request served by an ACTIVE
    table. *)
Theorem only_not_found_is_downgraded (self : Repository) (k v : string) (w : World) :
  let a := connected w in
  (result_of (SessionModel.get k) w = Raise DoesNotExist ->
   result_of (DynamoDBRepository.get self k) w = Ok None)
  /\ result_of (DynamoDBRepository.get self k) w <> Raise DoesNotExist
  /\ (forall x, result_of (SessionModel.get k) w = Raise x -> x <> DoesNotExist ->
        result_of (DynamoDBRepository.get self k) w = Raise x
        /\ result_of (DynamoDBRepository.delete self k) w = Raise x
        /\ requests_of (DynamoDBRepository.delete self k) w = [GetItem a k])
  /\ (forall e fs, faults w = Some e :: fs ->
        result_of (DynamoDBRepository.get self k) w = Raise (StoreFailure e)
        /\ requests_of (DynamoDBRepository.get self k) w = [GetItem a k]
        /\ result_of (DynamoDBRepository.set self k v) w = Raise (StoreFailure e)
        /\ requests_of (DynamoDBRepository.set self k v) w = [PutItem a k v]
        /\ result_of (DynamoDBRepository.delete self k) w = Raise (StoreFailure e)
        /\ requests_of (DynamoDBRepository.delete self k) w = [GetItem a k])
  /\ (forall s e fs, result_of (SessionModel.get k) w = Ok s ->
        tail (faults w) = Some e :: fs ->
        result_of (DynamoDBRepository.delete self k) w = Raise (StoreFailure e)
        /\ requests_of (DynamoDBRepository.delete self k) w
           = [GetItem a k; DeleteItem a k])
  /\ (forall r, result_of (DynamoDBRepository.get self k) w = Ok r ->
        quiet 1 (faults w) = true /\ ready w = true)
  /\ (result_of (DynamoDBRepository.set self k v) w = Ok tt ->
        quiet 1 (faults w) = true /\ ready w = true)
  /\ (result_of (DynamoDBRepository.delete self k) w = Ok tt ->
        quiet (length (requests_of (DynamoDBRepository.delete self k) w)) (faults w)
        = true /\ ready w = true).
Proof.
  cbv zeta. rewrite get_result, set_result, delete_result, delete_requests.
  rewrite get_requests, set_requests, lookup_result.
  split; [by intros ->|].
  split; [by destruct (lookup_answer k w) as [s|[| |e]]|].
  split; [by intros [| |e] -> Hx|].
  split.
  { intros e fs Hf.
    by rewrite (lookup_answer_failed k w e fs Hf), (write_answer_failed w e fs Hf). }
  split.
  { intros s e fs -> Hf. by rewrite (write_answer_failed (sent _ (connect w)) e fs Hf). }
  split.
  { intros r. destruct (lookup_answer k w) as [s|[| |e]] eqn:E; try done; intros _.
    - by apply lookup_answer_ok in E as (? & ? & _).
    - by apply lookup_answer_absent in E as (? & ? & _). }
  split; [apply write_answer_ok|].
  destruct (lookup_answer k w) as [s|[| |e]] eqn:E; try done.
  - apply lookup_answer_ok in E as (Hq & Hr & _).
    intros [Hq' _]%write_answer_ok. split; [|done]. simpl in *.
    unfold quiet in *. by destruct (faults w) as [|[e|] fs'].
  - by apply lookup_answer_absent in E as (? & ? & _).
Qed.

Lemma only_not_found_is_downgraded_witness :
  result_of (DynamoDBRepository.get repo_sessions "tok-123") world_down
  = Raise (StoreFailure ConnectivityError)
  /\ result_of (DynamoDBRepository.get repo_sessions "never-set") world_tok
     = Ok None
  /\ result_of (DynamoDBRepository.delete repo_sessions "tok-123") world_throttled
     = Raise (StoreFailure ThrottlingError).
Proof.
  split; [| split].
  - destruct (only_not_found_is_downgraded repo_sessions "tok-123" "u1" world_down)
      as (_ & _ & _ & H & _).
    apply (H ConnectivityError [Some ConnectivityError]). reflexivity.
  - destruct (only_not_found_is_downgraded repo_sessions "never-set" "u1" world_tok)
      as (H & _).
    apply H. vm_compute. reflexivity.
  - destruct (only_not_found_is_downgraded repo_sessions "tok-123" "u1" world_throttled)
      as (_ & _ & _ & _ & H & _).
    apply (H (mkSession "tok-123" "u1") ThrottlingError []); vm_compute; reflexivity.
Defined.

(** C9: whatever the key, the empty string included, the first thing [get],
    [set] and [delete] do is send the store a request carrying that key (and
    value) as given; none of them raises [InvalidInput], and whatever they
    raise is a failure of the store. *)
Theorem keys_are_forwarded (self : Repository) (k v : string) (w : World) :
  let a := connected w in
  head (requests_of (DynamoDBRepository.get self k) w) = Some (GetItem a k)
  /\ head (requests_of (DynamoDBRepository.set self k v) w) = Some (PutItem a k v)
  /\ head (requests_of (DynamoDBRepository.delete self k) w) = Some (GetItem a k)
  /\ result_of (DynamoDBRepository.get self k) w <> Raise InvalidInput
  /\ result_of (DynamoDBRepository.set self k v) w <> Raise InvalidInput
  /\ result_of (DynamoDBRepository.delete self k) w <> Raise InvalidInput
  /\ forall x,
       result_of (DynamoDBRepository.get self k) w = Raise x
       \/ result_of (DynamoDBRepository.set self k v) w = Raise x
       \/ result_of (DynamoDBRepository.delete self k) w = Raise x ->
       exists e, x = StoreFailure e.
Proof.
  cbv zeta. rewrite get_requests, set_requests, delete_requests.
  assert (Hall : forall x,
       result_of (DynamoDBRepository.get self k) w = Raise x
       \/ result_of (DynamoDBRepository.set self k v) w = Raise x
       \/ result_of (DynamoDBRepository.delete self k) w = Raise x ->
       exists e, x = StoreFailure e).
  { intros x. rewrite get_result, set_result, delete_result, lookup_result.
    destruct (lookup_answer k w) as [s|y] eqn:E.
    - intros [H|[H|H]]; try done; by apply write_answer_raises in H.
    - apply lookup_answer_raises in E as [->|[e ->]].
      + intros [H|[H|H]]; try done; by apply write_answer_raises in H.
      + intros [[= <-]|[H|[= <-]]]; eauto. by apply write_answer_raises in H. }
  split; [done|]. split; [done|].
  split; [by destruct (result_of (SessionModel.get k) w)|].
  repeat split; try done; intros H; by destruct (Hall InvalidInput) as [e ?]; eauto.
Qed.

(** C10: when the lookup of [delete(k)] raises anything but [DoesNotExist],
    [delete] raises the same, the lookup is the only request sent and no
    table changes; a delete request goes out only after the lookup returned
    the record of [k], and it is for that key in the bound table. *)
Theorem delete_lookup_failure_is_atomic (self : Repository) (k : string) (w : World) :
  (forall x, result_of (SessionModel.get k) w = Raise x -> x <> DoesNotExist ->
     result_of (DynamoDBRepository.delete self k) w = Raise x
     /\ requests_of (DynamoDBRepository.delete self k) w
        = [GetItem (connected w) k]
     /\ tables (snd (DynamoDBRepository.delete self k w)) = tables w)
  /\ (forall a' k', DeleteItem a' k' ∈ requests_of (DynamoDBRepository.delete self k) w ->
        a' = connected w /\ k' = k
        /\ exists v, result_of (SessionModel.get k) w = Ok (mkSession k v)
                     /\ bound_items w !! k = Some v).
Proof.
  split.
  - intros x Hx Hne. rewrite delete_result, delete_requests, Hx.
    rewrite delete_run. rewrite lookup_result in Hx. rewrite Hx.
    by destruct x.
  - intros a' k'. rewrite delete_requests, lookup_result.
    destruct (lookup_answer k w) as [s|x] eqn:E.
    + apply lookup_answer_ok in E as (_ & _ & Hs & Hk).
      intros Hin. apply elem_of_cons in Hin as [[=]|Hin].
      apply list_elem_of_singleton in Hin as [= -> ->].
      split; [done|]. split; [done|]. exists (value s). by rewrite Hs at 1.
    + intros Hin. apply list_elem_of_singleton in Hin. done.
Qed.

Lemma delete_lookup_failure_is_atomic_witness :
  result_of (DynamoDBRepository.delete repo_sessions "tok-123") world_down
  = Raise (StoreFailure ConnectivityError)
  /\ requests_of (DynamoDBRepository.delete repo_sessions "tok-123") world_down
     = [GetItem (connected world_down) "tok-123"]
  /\ tables (snd (DynamoDBRepository.delete repo_sessions "tok-123" world_down))
     = tables world_down.
Proof.
  destruct (delete_lookup_failure_is_atomic repo_sessions "tok-123" world_down)
    as [H _].
  apply (H (StoreFailure ConnectivityError)); [vm_compute; reflexivity | discriminate].
Defined.

Lemma keys_are_forwarded_witness :
  head (requests_of (DynamoDBRepository.get repo_sessions "") world_ready)
  = Some (GetItem (connected world_ready) "")
  /\ exists e, StoreFailure ConnectivityError = StoreFailure e.
Proof.
  destruct (keys_are_forwarded repo_sessions "" "u1" world_down)
    as (_ & _ & _ & _ & _ & _ & H).
  split.
  - apply (keys_are_forwarded repo_sessions "" "u1" world_ready).
  - apply (H (StoreFailure ConnectivityError)). left. vm_compute. reflexivity.
Defined.

(** ** Further properties of the operations *)

Lemma write_answer_ready w : write_answer w = Ok tt -> ready w = true.
Proof. by intros [_ ?]%write_answer_ok. Qed.

Lemma written_same_schema f w : same_schema w (written f w).
Proof.
  split; [unfold written; by destruct (write_answer w)|].
  intros b. destruct (write_answer w) as [[]|x] eqn:E.
  - rewrite (written_ok f w E). simpl.
    apply write_answer_ready, ready_inv in E as [its Hits].
    destruct (decide (b = connected w)) as [->|Hb].
    + by rewrite lookup_insert_eq, Hits.
    + by rewrite lookup_insert_ne.
  - unfold written. by rewrite E.
Qed.

(** X5: a [set(k, v)] that returns has replaced the value of [k] in the
    bound table by [v] and changed nothing else: the other keys of that
    table, the other tables and the binding are as they were, and the table
    is still ACTIVE. *)
Theorem set_changes_one_key (self : Repository) (k v : string) (w w' : World) :
  DynamoDBRepository.set self k v w = (Ok tt, w') ->
  bound_items w' = <[k := v]> (bound_items w)
  /\ (forall k', k' <> k -> bound_items w' !! k' = bound_items w !! k')
  /\ (forall b, b <> connected w -> tables w' !! b = tables w !! b)
  /\ meta w' = meta w
  /\ ready w' = true.
Proof.
  rewrite set_run. intros [= Ha <-]. rewrite (written_ok _ w Ha).
  rewrite bound_items_after_put by done.
  split; [done|]. split; [intros k' Hk; by apply lookup_insert_ne|].
  split; [intros b Hb; simpl; by apply lookup_insert_ne|].
  split; [done|]. by apply ready_after_put.
Qed.

Lemma set_changes_one_key_witness :
  bound_items world_tok = <["tok-123" := "u1"]> (bound_items world_ready)
  /\ ready world_tok = true.
Proof.
  destruct (set_changes_one_key repo_sessions "tok-123" "u1" world_ready world_tok)
    as (H1 & _ & _ & _ & H2).
  - vm_compute. reflexivity.
  - split; [exact H1 | exact H2].
Defined.

(** X6: a [delete(k)] that returns has removed [k] from the bound table, if
    it was there, and changed nothing else: the other keys of that table,
    the other tables and the binding are as they were. *)
Theorem delete_removes_one_key (self : Repository) (k : string) (w w' : World) :
  DynamoDBRepository.delete self k w = (Ok tt, w') ->
  bound_items w' = base.delete k (bound_items w)
  /\ (forall k', k' <> k -> bound_items w' !! k' = bound_items w !! k')
  /\ (forall b, b <> connected w -> tables w' !! b = tables w !! b)
  /\ meta w' = meta w
  /\ ready w' = true.
Proof.
  rewrite delete_run.
  destruct (lookup_answer k w) as [s|[| |e]] eqn:E; try done.
  - cbv zeta. intros [= Ha <-]. rewrite (written_ok _ _ Ha).
    assert (Hc : connected (sent (GetItem (connected w) k) (connect w))
                 = connected w) by (by autorewrite with world).
    rewrite Hc. rewrite bound_items_after_put by (by rewrite Hc).
    autorewrite with world.
    split; [done|]. split; [intros k' Hk; by apply lookup_delete_ne|].
    split; [intros b Hb; simpl; by apply lookup_insert_ne|].
    split; [done|]. apply ready_put. by rewrite Hc.
  - intros [= <-]. apply lookup_answer_absent in E as (_ & Hr & Hk).
    autorewrite with world. rewrite (delete_id _ _ Hk).
    by repeat split.
Qed.

Lemma delete_removes_one_key_witness :
  bound_items (snd (DynamoDBRepository.delete repo_sessions "tok-123" world_tok))
  = base.delete "tok-123" (bound_items world_tok).
Proof.
  apply (delete_removes_one_key repo_sessions "tok-123" world_tok).
  vm_compute. reflexivity.
Defined.

(** X7: [get], [set] and [delete] never rebind [Meta], never create or drop
    a table and never change a table's status, whether they return or
    raise; [get] changes no table at all. *)
Theorem operations_keep_schema (self : Repository) (k v : string) (w : World) :
  tables (snd (DynamoDBRepository.get self k w)) = tables w
  /\ same_schema w (snd (DynamoDBRepository.get self k w))
  /\ same_schema w (snd (DynamoDBRepository.set self k v w))
  /\ same_schema w (snd (DynamoDBRepository.delete self k w)).
Proof.
  rewrite get_run, set_run, delete_run.
  split; [done|]. split; [done|]. split; [apply written_same_schema|].
  destruct (lookup_answer k w) as [s|[| |e]]; try done.
  apply (written_same_schema _ (sent _ (connect w))).
Qed.

(** ** Sequences of calls *)

(** One served call does what the dictionary does, on a table that stays
    ACTIVE, with at most two answers of the store consumed. *)
Lemma perform_served self c w :
  ready w = true -> quiet 2 (faults w) = true ->
  exists w',
    perform self c w = (Ok (fst (dict_step c (bound_items w))), w')
    /\ bound_items w' = snd (dict_step c (bound_items w))
    /\ ready w' = true
    /\ forall n, quiet (2 + n) (faults w) = true -> quiet n (faults w') = true.
Proof.
  intros Hr Hq2. pose proof (quiet_le 2 1 _ ltac:(lia) Hq2) as Hq1.
  destruct c as [k|k v|k]; simpl; unfold bind.
  - rewrite (get_served self k w Hr Hq1). eexists. split; [done|].
    split; [by autorewrite with world|]. split; [by autorewrite with world|].
    intros n Hn. simpl. apply quiet_tail.
    by apply (quiet_le (S (S n)) (S n)); [lia|].
  - rewrite (set_served self k v w Hr Hq1). eexists. split; [done|].
    split; [by rewrite bound_items_after_put|]. split; [by apply ready_after_put|].
    intros n Hn. simpl. apply quiet_tail.
    by apply (quiet_le (S (S n)) (S n)); [lia|].
  - destruct (bound_items w !! k) as [v|] eqn:Hk.
    + rewrite (delete_served_present self k v w Hr Hq2 Hk). eexists.
      split; [done|].
      split; [rewrite bound_items_after_put; by autorewrite with world|].
      split; [apply ready_after_put; by autorewrite with world|].
      intros n Hn. simpl. by apply quiet_tail, quiet_tail.
    + rewrite (delete_served_absent self k w Hr Hq1 Hk). eexists.
      split; [done|].
      split; [autorewrite with world; by rewrite delete_id|].
      split; [by autorewrite with world|].
      intros n Hn. simpl. apply quiet_tail.
      by apply (quiet_le (S (S n)) (S n)); [lia|].
Qed.

(** X8: on an ACTIVE table and a store that serves its requests, any
    sequence of [get], [set] and [delete] calls returns what the same calls
    return on an in-memory dictionary holding the table's items, and leaves
    the table holding what the dictionary ends with. *)
Theorem calls_behave_like_a_dict (self : Repository) (cs : list Call) (w : World) :
  ready w = true -> quiet (2 * length cs) (faults w) = true ->
  exists w',
    perform_all self cs w = (Ok (fst (dict_run cs (bound_items w))), w')
    /\ bound_items w' = snd (dict_run cs (bound_items w))
    /\ ready w' = true.
Proof.
  revert w. induction cs as [|c cs IH]; intros w Hr Hq.
  - by exists w.
  - cbn [length] in Hq.
    replace (2 * S (length cs)) with (2 + 2 * length cs) in Hq by lia.
    pose proof (quiet_le (2 + 2 * length cs) 2 _ ltac:(lia) Hq) as Hq2.
    destruct (perform_served self c w Hr Hq2) as (w1 & Hrun & Hitems & Hr1 & Hq1).
    destruct (IH w1 Hr1 (Hq1 _ Hq)) as (w2 & Hrun2 & Hitems2 & Hr2).
    exists w2. cbn [perform_all dict_run]. unfold bind at 1. rewrite Hrun.
    unfold bind at 1. rewrite Hrun2, Hitems.
    destruct (dict_step c (bound_items w)) as [r d'] eqn:Es. simpl in *.
    rewrite Hitems in Hitems2.
    destruct (dict_run cs d') as [rs d''] eqn:Er. simpl in *. done.
Qed.

Lemma calls_behave_like_a_dict_witness :
  exists w',
    perform_all repo_sessions
      [CallSet "a" "1"; CallSet "b" "2"; CallDelete "a"; CallGet "a"; CallGet "b"]
      world_ready
    = (Ok [None; None; None; None; Some "2"], w')
    /\ bound_items w' !! "a" = None
    /\ bound_items w' !! "b" = Some "2".
Proof.
  destruct (calls_behave_like_a_dict repo_sessions
    [CallSet "a" "1"; CallSet "b" "2"; CallDelete "a"; CallGet "a"; CallGet "b"]
    world_ready) as (w' & H1 & H2 & _).
  - vm_compute. reflexivity.
  - vm_compute. reflexivity.
  - exists w'. split; [exact H1|]. rewrite H2. split; vm_compute; reflexivity.
Defined.

(** ** Provisioning *)

Lemma live_connect w : live (connect w).
Proof. unfold live. by rewrite connected_connect. Qed.

Lemma live_sent r w : live w -> live (sent r w).
Proof. done. Qed.

Lemma live_with_table a t w : live w -> live (with_table a t w).
Proof. done. Qed.

Lemma connect_live w : live w -> connect w = w.
Proof.
  unfold live, connect, with_connection. intros <-. by destruct w.
Qed.

Lemma get_connection_live w :
  live w -> SessionModel._get_connection w = (Ok (connected w), w).
Proof. intros H. unfold SessionModel._get_connection. by rewrite connect_live. Qed.


Lemma poll_run a its n w :
  quiet (S n) (faults w) = true ->
  SessionModel.poll a its n w
  = (Ok tt,
     mkWorld (meta w) (connection w) (<[a := mkTable ACTIVE its]> (tables w))
       (provision_delay w)
       (drop (S n) (faults w)) (trace w ++ replicate (S n) (DescribeTable a))).
Proof.
  revert w. induction n as [|n IH]; intros [m c tb d fs tr] Hq.
  - cbn [SessionModel.poll]. unfold bind, request, put_table, with_table, sent.
    simpl. by destruct fs as [|[e|] fs'].
  - cbn [SessionModel.poll]. unfold bind at 1 2, request, put_table. simpl.
    destruct fs as [|[e|] fs']; try done; unfold with_table, sent; simpl;
      rewrite IH by done; simpl; rewrite insert_insert_eq, <- app_assoc; done.
Qed.

Lemma exists_run w :
  SessionModel.exists_ w
  = (exists_answer w, sent (DescribeTable (connected w)) (connect w)).
Proof.
  unfold SessionModel.exists_, exists_answer, connect.
  unfold try_except_TableDoesNotExist. open_connection.
  generalize (connected w) as a. intros a. destruct w as [m c tb d fs tr]. run.
  destruct fs as [|[[]|] fs']; try done; by destruct (tb !! a).
Qed.

Lemma exists_live w :
  live w ->
  SessionModel.exists_ w = (exists_answer w, sent (DescribeTable (connected w)) w).
Proof. intros H. by rewrite exists_run, connect_live. Qed.

Lemma setup_rebinds config w :
  SessionModel.setup config w
  = (e <- SessionModel.exists_ ;;
     if negb e then SessionModel.create_table true else ret tt)
      (with_meta (Meta_of_config config) w).
Proof. by destruct w. Qed.

Lemma bind_get_connection {A} (k : TableAddr -> M A) w :
  live w -> (a <- SessionModel._get_connection ;; k a) w = k (connected w) w.
Proof. intros H. unfold bind. by rewrite get_connection_live. Qed.

Lemma connection_create_table_run a w :
  SessionModel.connection_create_table a w
  = match faults w with
    | Some e :: _ => (Raise (StoreFailure e), sent (CreateTable a) w)
    | _ =>
      match tables w !! a with
      | Some _ => (Raise (StoreFailure ResourceInUse), sent (CreateTable a) w)
      | None =>
        (Ok tt, with_table a (mkTable (CREATING (provision_delay w)) ∅)
                  (sent (CreateTable a) w))
      end
    end.
Proof.
  destruct w as [m c tb d fs tr]. unfold SessionModel.connection_create_table.
  run. destruct fs as [|[e|] fs']; try done; by destruct (tb !! a).
Qed.

Lemma wait_active_creating a w n its :
  tables w !! a = Some (mkTable (CREATING n) its) ->
  SessionModel.wait_active a w = SessionModel.poll a its n w.
Proof.
  intros H. unfold SessionModel.wait_active. unfold bind at 1, read at 1.
  by rewrite H.
Qed.

Lemma wait_active_active a w its :
  tables w !! a = Some (mkTable ACTIVE its) ->
  SessionModel.wait_active a w = SessionModel.poll a its 0 w.
Proof.
  intros H. unfold SessionModel.wait_active. unfold bind at 1, read at 1.
  by rewrite H.
Qed.

Ltac live_tac :=
  repeat (apply live_sent || apply live_with_table);
  first [assumption | apply live_connect].

Lemma first_fault_S n fs :
  first_fault (S n) fs
  = match first_fault 1 fs with
    | Some e => Some e
    | None => first_fault n (tail fs)
    end.
Proof. destruct fs as [|[e|] fs']; simpl; try done. by rewrite first_fault_nil. Qed.

Lemma tail_forgive_head fs : tail (forgive_head fs) = tail fs.
Proof. by destruct fs. Qed.

Lemma tail_forgive_checks fs : tail (forgive_checks fs) = forgive_head (tail fs).
Proof. by destruct fs. Qed.

Lemma first_fault_forgive_checks fs :
  first_fault 1 (forgive_checks fs) = first_fault 1 (forgive_head fs).
Proof. by destruct fs. Qed.

Lemma quiet_split n fs :
  quiet (S n) fs = true <-> first_fault 1 fs = None /\ quiet n (tail fs) = true.
Proof.
  unfold quiet. rewrite first_fault_S.
  destruct (first_fault 1 fs); [split; [done | by intros [? _]] |].
  split; [done | by intros [_ ?]].
Qed.

Lemma quiet_forgive_head n fs : quiet n fs = true -> quiet n (forgive_head fs) = true.
Proof. unfold quiet. destruct n; [done|]. by destruct fs as [|[[]|] fs']. Qed.

Lemma quiet_forgive_checks n fs :
  quiet n fs = true -> quiet n (forgive_checks fs) = true.
Proof.
  unfold quiet. destruct n as [|n]; [done|].
  destruct fs as [|[e|] fs']; try done. simpl.
  apply (quiet_forgive_head n fs').
Qed.

Lemma exists_answer_absent w :
  tables w !! connected w = None ->
  exists_answer w = outcome_of_fault false (first_fault 1 (forgive_head (faults w))).
Proof.
  intros Ha. unfold exists_answer.
  rewrite Ha, (bool_decide_eq_false_2 _ is_Some_None).
  by destruct (faults w) as [|[[]|] fs'].
Qed.


Lemma drop_tail {A} n (l : list A) : drop n (tail l) = drop (S n) l.
Proof. destruct l; simpl; [apply drop_nil | done]. Qed.

Lemma create_table_fresh_run w :
  live w ->
  tables w !! connected w = None ->
  quiet (provision_delay w + 3) (forgive_head (faults w)) = true ->
  SessionModel.create_table true w
  = (Ok tt,
     mkWorld (meta w) (connection w)
       (<[connected w := mkTable ACTIVE ∅]> (tables w))
       (provision_delay w)
       (drop (provision_delay w + 3) (faults w))
       (trace w ++ [DescribeTable (connected w); CreateTable (connected w)]
                ++ replicate (S (provision_delay w)) (DescribeTable (connected w)))).
Proof.
  intros Hl Ha Hq.
  replace (provision_delay w + 3) with (S (S (S (provision_delay w)))) in * by lia.
  apply quiet_split in Hq as [Hf1 Hq]. rewrite tail_forgive_head in Hq.
  apply quiet_split in Hq as [Hf2 Hq].
  unfold SessionModel.create_table. unfold bind at 1.
  rewrite (exists_live w Hl), (exists_answer_absent w Ha), Hf1.
  cbn [outcome_of_fault]. unfold bind at 1.
  rewrite bind_get_connection by live_tac. rewrite connected_sent.
  rewrite connection_create_table_run. cbn [faults sent tables].
  rewrite Ha.
  assert (Hd : drop (S (provision_delay w)) (tail (tail (faults w)))
               = drop (S (S (S (provision_delay w)))) (faults w))
    by (by rewrite !drop_tail).
  assert (Hnf : match tail (faults w) with Some e :: _ => False | _ => True end).
  { by destruct (tail (faults w)) as [|[e|] fs2]. }
  destruct (tail (faults w)) as [|[e|] fs2] eqn:E2; try done.
  all: rewrite bind_get_connection by live_tac.
  all: rewrite (wait_active_creating _ _ (provision_delay w) ∅)
      by (cbn; apply lookup_insert_eq).
  all: rewrite connected_with_table, !connected_sent.
  all: rewrite poll_run by (cbn [faults with_table sent provision_delay]; by rewrite E2).
  all: cbn [meta connection tables provision_delay faults trace with_table sent].
  all: by rewrite insert_insert_eq, ?E2, Hd, <- !app_assoc.
Qed.

(** ** Construction *)

Lemma init_run config w :
  let w0 := with_meta (Meta_of_config config) w in
  let w1 := sent (DescribeTable (connected w0)) (connect w0) in
  DynamoDBRepository.__init__ config w
  = match exists_answer w0 with
    | Ok true => (Ok (mkRepository config), w1)
    | Ok false =>
      match SessionModel.create_table true w1 with
      | (Ok _, w') => (Ok (mkRepository config), w')
      | (Raise x, w') => (Raise x, w')
      end
    | Raise x => (Raise x, w1)
    end.
Proof.
  intros w0 w1. unfold DynamoDBRepository.__init__. unfold bind at 1.
  rewrite setup_rebinds. fold w0. unfold bind at 1. rewrite exists_run. fold w1.
  by destruct (exists_answer w0) as [[]|x].
Qed.


Lemma init_fresh_run config w :
  let c := connected (with_meta (Meta_of_config config) w) in
  tables w !! c = None ->
  quiet (provision_delay w + 4) (forgive_checks (faults w)) = true ->
  DynamoDBRepository.__init__ config w
  = (Ok (mkRepository config),
     mkWorld (Meta_of_config config) (Some c)
       (<[c := mkTable ACTIVE ∅]> (tables w))
       (provision_delay w)
       (drop (provision_delay w + 4) (faults w))
       (trace w ++ [DescribeTable c; DescribeTable c; CreateTable c]
                ++ replicate (S (provision_delay w)) (DescribeTable c))).
Proof.
  intros c Ha Hq. rewrite init_run. cbv zeta.
  set (w0 := with_meta (Meta_of_config config) w) in *.
  rewrite (exists_answer_absent w0 Ha).
  replace (provision_delay w + 4) with (S (provision_delay w + 3)) in * by lia.
  apply quiet_split in Hq as [Hf Hq].
  rewrite first_fault_forgive_checks in Hf. rewrite tail_forgive_checks in Hq.
  change (faults w0) with (faults w). rewrite Hf. cbn [outcome_of_fault].
  rewrite create_table_fresh_run; [| live_tac | | done].
  2: { by rewrite connected_sent, connected_connect. }
  rewrite connected_sent, connected_connect. fold c.
  cbn [meta connection tables provision_delay faults trace sent connect
       with_connection with_meta w0].
  by rewrite drop_tail, <- !app_assoc.
Qed.

Lemma exists_answer_present w t :
  tables w !! connected w = Some t ->
  (forall fs, faults w <> Some ResourceNotFound :: fs) ->
  exists_answer w = outcome_of_fault true (first_fault 1 (faults w)).
Proof.
  intros Ha Hn. unfold exists_answer.
  rewrite Ha, (bool_decide_eq_true_2 _ (mk_is_Some _ _ eq_refl)).
  destruct (faults w) as [|[[]|] fs'] eqn:E; try done. by destruct (Hn fs').
Qed.

Lemma init_existing_run config w t :
  let c := connected (with_meta (Meta_of_config config) w) in
  tables w !! c = Some t ->
  (forall fs, faults w <> Some ResourceNotFound :: fs) ->
  DynamoDBRepository.__init__ config w
  = (outcome_of_fault (mkRepository config) (first_fault 1 (faults w)),
     sent (DescribeTable c) (connect (with_meta (Meta_of_config config) w))).
Proof.
  intros c Ha Hn. rewrite init_run. cbv zeta.
  rewrite (exists_answer_present _ t Ha Hn).
  change (faults (with_meta (Meta_of_config config) w)) with (faults w).
  by destruct (first_fault 1 (faults w)).
Qed.

(** ** What construction touches *)

Lemma touches_only_refl a w : touches_only a w w.
Proof.
  split; [done|]. split; [done|].
  split; [exists []; by rewrite app_nil_r | done].
Qed.

Lemma touches_only_trans a w1 w2 w3 :
  touches_only a w1 w2 -> touches_only a w2 w3 -> touches_only a w1 w3.
Proof.
  intros (Hm & Hc & [l Hl] & Ht) (Hm' & Hc' & [l' Hl'] & Ht').
  split; [congruence|]. split; [congruence|]. split.
  - exists (l ++ l'). by rewrite Hl', Hl, <- app_assoc.
  - intros b Hb. by rewrite Ht', Ht.
Qed.

Lemma sent_touches a r w : touches_only a w (sent r w).
Proof. split; [done|]. split; [done|]. split; [by exists [r] | done]. Qed.

Lemma with_table_touches a t w : touches_only a w (with_table a t w).
Proof.
  split; [done|]. split; [done|]. split; [exists []; by rewrite app_nil_r|].
  intros b Hb. simpl. by apply lookup_insert_ne.
Qed.

Lemma request_touches a r w : touches_only a w (snd (request r w)).
Proof.
  unfold request. destruct (faults w) as [|[e|] fs']; apply sent_touches.
Qed.

Lemma poll_touches a its n w :
  touches_only a w (snd (SessionModel.poll a its n w)).
Proof.
  revert w. induction n as [|n IH]; intros w; cbn [SessionModel.poll];
    unfold bind at 1; pose proof (request_touches a (DescribeTable a) w) as Hr;
    destruct (request (DescribeTable a) w) as [[[]|x] w1]; simpl in *; try done.
  - eapply touches_only_trans; [exact Hr | apply with_table_touches].
  - unfold bind, put_table. simpl.
    eapply touches_only_trans; [exact Hr|].
    eapply touches_only_trans; [apply with_table_touches|].
    specialize (IH (with_table a (mkTable (CREATING n) its) w1)).
    by destruct (SessionModel.poll a its n _) as [[[]|x] w2].
Qed.

Lemma wait_active_touches a w :
  touches_only a w (snd (SessionModel.wait_active a w)).
Proof.
  unfold SessionModel.wait_active. unfold bind at 1. unfold read at 1.
  destruct (tables w !! a) as [[[n|] its]|]; try apply poll_touches.
  unfold bind, raise. pose proof (request_touches a (DescribeTable a) w) as Hr.
  by destruct (request (DescribeTable a) w) as [[[]|x] w1].
Qed.

Lemma connection_create_table_touches a w :
  touches_only a w (snd (SessionModel.connection_create_table a w)).
Proof.
  rewrite connection_create_table_run.
  destruct (faults w) as [|[e|] fs']; try apply sent_touches;
    (destruct (tables w !! a); [apply sent_touches|]);
    (eapply touches_only_trans; [apply sent_touches | apply with_table_touches]).
Qed.

Lemma touches_live a w w' : touches_only a w w' -> live w -> live w'.
Proof.
  intros (Hm & Hc & _) Hl. unfold live, connected in *. by rewrite Hm, Hc.
Qed.

Lemma touches_connected a w w' : touches_only a w w' -> connected w' = connected w.
Proof. intros (Hm & Hc & _). unfold connected. by rewrite Hm, Hc. Qed.

Lemma create_table_touches b w :
  live w -> touches_only (connected w) w (snd (SessionModel.create_table b w)).
Proof.
  intros Hl. set (a := connected w).
  unfold SessionModel.create_table. unfold bind at 1. rewrite (exists_live w Hl).
  fold a. set (w1 := sent (DescribeTable a) w).
  assert (H1 : touches_only a w w1) by apply sent_touches.
  destruct (exists_answer w) as [e|x]; [|done]. unfold bind at 1.
  assert (H2 : touches_only a w
    (snd ((if e then ret tt else
             a0 <- SessionModel._get_connection;;
             SessionModel.connection_create_table a0) w1))).
  { destruct e; [done|]. rewrite bind_get_connection by live_tac.
    eapply touches_only_trans; [exact H1|]. apply connection_create_table_touches. }
  destruct ((if e then ret tt else _) w1) as [[[]|x] w2]; [|done].
  cbn [snd] in H2. destruct b; [|done].
  rewrite bind_get_connection by (by apply (touches_live a w)).
  rewrite (touches_connected a w w2 H2). fold a.
  eapply touches_only_trans; [exact H2 | apply wait_active_touches].
Qed.

(** Construction rebinds [Meta] first, goes through the connection that
    binding leaves in use, sends its first status request there, and changes
    no table but the one at that address. *)
Lemma init_shape config w :
  let c := connected (with_meta (Meta_of_config config) w) in
  let w' := snd (DynamoDBRepository.__init__ config w) in
  meta w' = Meta_of_config config
  /\ connection w' = Some c
  /\ (exists l, trace w' = trace w ++ DescribeTable c :: l)
  /\ forall b, b <> c -> tables w' !! b = tables w !! b.
Proof.
  intros c w'. unfold w'. rewrite init_run. cbv zeta. fold c.
  set (w0 := with_meta (Meta_of_config config) w).
  set (w1 := sent (DescribeTable c) (connect w0)).
  assert (H1 : meta w1 = Meta_of_config config /\ connection w1 = Some c
               /\ (exists l, trace w1 = trace w ++ DescribeTable c :: l)
               /\ forall b, b <> c -> tables w1 !! b = tables w !! b).
  { split; [done|]. split; [done|]. split; [by exists [] | done]. }
  destruct (exists_answer w0) as [[]|x]; try done.
  assert (Hl : live w1) by (unfold w1; live_tac).
  pose proof (create_table_touches true w1 Hl) as (Hm & Hc & [l Hl'] & Ht).
  assert (Hc1 : connected w1 = c).
  { unfold w1. by rewrite connected_sent, connected_connect. }
  rewrite Hc1 in Ht.
  destruct (SessionModel.create_table true w1) as [[[]|x] w2]; cbn [snd] in *.
  all: split; [by rewrite Hm|]; split; [by rewrite Hc|].
  all: split; [exists l; rewrite Hl'; unfold w1; simpl; by rewrite <- app_assoc|].
  all: intros b Hb; by rewrite Ht.
Qed.


Lemma init_connected config w :
  connected (snd (DynamoDBRepository.__init__ config w))
  = connected (with_meta (Meta_of_config config) w).
Proof.
  destruct (init_shape config w) as (Hm & Hc & _).
  pose proof (connected_name (with_meta (Meta_of_config config) w)) as Hn.
  unfold connected at 1. by rewrite Hc, Hm, decide_True.
Qed.


(** ** Construction and the shared binding *)


Lemma connected_rebound config w :
  match connection w with
  | None => True
  | Some c0 =>
    addr_table_name c0 <> table_name config
    \/ c0 = addr_of (Meta_of_config config)
  end ->
  connected (with_meta (Meta_of_config config) w)
  = addr_of (Meta_of_config config).
Proof.
  unfold connected. cbn [connection meta with_meta].
  destruct (connection w) as [c0|]; [|done].
  cbn [Meta_table_name Meta_of_config]. case_decide; [|done].
  by intros [?| ->].
Qed.








(** ** Further properties of construction *)

(** X1: construction when the table its connection designates already
    exists, with a status request that is not answered "no such table":
    that request is the only call, the instance is returned when it goes
    through and its failure is raised otherwise, no table is created or
    changed, and a table that is still being created is not waited for.
    The connection is the one left by the rebinding: built from the
    configuration, or the cached one when it has the configuration's table
    name. *)
Theorem construction_on_existing_table
    (config : DynamoDBConfig) (w : World) (t : Table) :
  let c := connected (with_meta (Meta_of_config config) w) in
  tables w !! c = Some t ->
  (forall fs, faults w <> Some ResourceNotFound :: fs) ->
  result_of (DynamoDBRepository.__init__ config) w
  = outcome_of_fault (mkRepository config) (first_fault 1 (faults w))
  /\ requests_of (DynamoDBRepository.__init__ config) w = [DescribeTable c]
  /\ tables (snd (DynamoDBRepository.__init__ config w)) = tables w
  /\ ready (snd (DynamoDBRepository.__init__ config w))
     = match status t with ACTIVE => true | CREATING _ => false end.
Proof.
  cbv zeta. intros Ha Hn. pose proof (init_existing_run config w t Ha Hn) as Hrun.
  pose proof (init_connected config w) as Hc.
  unfold result_of. split; [by rewrite Hrun|].
  split; [apply requests_of_app; by rewrite Hrun|].
  assert (Ht : tables (snd (DynamoDBRepository.__init__ config w)) = tables w)
    by (by rewrite Hrun).
  split; [done|].
  unfold ready. rewrite Hc, Ht, Ha. by destruct t as [[n|] its].
Qed.

Lemma construction_on_existing_table_witness :
  requests_of (DynamoDBRepository.__init__ cfg_sessions) world_creating
  = [DescribeTable (addr_of (Meta_of_config cfg_sessions))]
  /\ ready (snd (DynamoDBRepository.__init__ cfg_sessions world_creating)) = false.
Proof.
  destruct (construction_on_existing_table cfg_sessions world_creating
              (mkTable (CREATING 3) ∅)) as (_ & H1 & _ & H2).
  - vm_compute. reflexivity.
  - intros fs. vm_compute. discriminate.
  - split; [exact H1 | exact H2].
Defined.

(** X2: construction assigns [Meta] before it contacts the store.  Whatever
    the call does afterwards, a failure included, [Meta] holds the
    configuration's values when it ends; the connection it used and left is
    for the configuration's table name, built from the configuration unless
    a connection for that name was cached, which is then kept; the first
    call was the status request through that connection, and the next [get]
    of any instance goes through it. *)
Theorem construction_rebinds_first
    (config : DynamoDBConfig) (w : World) (self : Repository) (k : string) :
  let c := connected (with_meta (Meta_of_config config) w) in
  let w' := snd (DynamoDBRepository.__init__ config w) in
  meta w' = Meta_of_config config
  /\ connection w' = Some c
  /\ addr_table_name c = table_name config
  /\ c = match connection w with
         | Some c0 =>
           if decide (addr_table_name c0 = table_name config) then c0
           else addr_of (Meta_of_config config)
         | None => addr_of (Meta_of_config config)
         end
  /\ head (requests_of (DynamoDBRepository.__init__ config) w)
     = Some (DescribeTable c)
  /\ requests_of (DynamoDBRepository.get self k) w' = [GetItem c k].
Proof.
  cbv zeta. destruct (init_shape config w) as (Hm & Hc & [l Hl] & _).
  split; [done|]. split; [done|].
  split; [apply (connected_name (with_meta (Meta_of_config config) w))|].
  split; [done|]. split.
  - by rewrite (requests_of_app _ _ _ Hl).
  - by rewrite get_requests, init_connected.
Qed.

(** X3: construction changes no table other than the one its connection
    designates, whether it succeeds or fails. *)
Theorem construction_leaves_other_tables
    (config : DynamoDBConfig) (w : World) (b : TableAddr) :
  b <> connected (with_meta (Meta_of_config config) w) ->
  tables (snd (DynamoDBRepository.__init__ config w)) !! b = tables w !! b.
Proof. intros Hb. by apply init_shape. Qed.

Lemma construction_leaves_other_tables_witness :
  tables (snd (DynamoDBRepository.__init__ cfg_other world_tok))
    !! addr_of (Meta_of_config cfg_sessions)
  = tables world_tok !! addr_of (Meta_of_config cfg_sessions).
Proof.
  apply (construction_leaves_other_tables cfg_other world_tok
           (addr_of (Meta_of_config cfg_sessions))).
  vm_compute. discriminate.
Defined.

(** X4: a table created by construction starts empty: in a process with no
    connection yet, or one for another table name, when the table was
    missing and the store serves every request, [get] on the new instance
    returns [None] for every key. *)
Theorem fresh_table_is_empty (config : DynamoDBConfig) (w : World) (k : string) :
  match connection w with
  | None => True
  | Some c0 =>
    addr_table_name c0 <> table_name config
    \/ c0 = addr_of (Meta_of_config config)
  end ->
  tables w !! addr_of (Meta_of_config config) = None ->
  quiet (provision_delay w + 5) (faults w) = true ->
  exists r w1 w2,
    DynamoDBRepository.__init__ config w = (Ok r, w1)
    /\ DynamoDBRepository.get r k w1 = (Ok None, w2).
Proof.
  intros Hconn Ha Hq.
  pose proof (connected_rebound config w Hconn) as Hc. rewrite <- Hc in Ha.
  pose proof (quiet_le (provision_delay w + 5) (provision_delay w + 4) _
                ltac:(lia) Hq) as Hq4.
  pose proof (init_fresh_run config w Ha (quiet_forgive_checks _ _ Hq4)) as Hrun.
  rewrite Hrun. eexists _, _, _. split; [done|].
  match goal with |- DynamoDBRepository.get _ _ ?W = _ => set (w1 := W) end.
  assert (Hcw : connected w1 = connected (with_meta (Meta_of_config config) w)).
  { pose proof (init_connected config w) as H. by rewrite Hrun in H. }
  assert (Ht : tables w1 !! connected w1 = Some (mkTable ACTIVE ∅)).
  { rewrite Hcw. unfold w1. cbn [tables]. apply lookup_insert_eq. }
  rewrite get_served.
  - unfold bound_items. rewrite Ht. cbn [items]. by rewrite lookup_empty.
  - unfold ready. by rewrite Ht.
  - unfold w1. cbn [faults]. apply (quiet_drop 1).
    by replace (provision_delay w + 4 + 1) with (provision_delay w + 5) by lia.
Qed.

Lemma fresh_table_is_empty_witness :
  exists r w1 w2,
    DynamoDBRepository.__init__ cfg_other world_tok = (Ok r, w1)
    /\ DynamoDBRepository.get r "tok-123" w1 = (Ok None, w2).
Proof.
  apply (fresh_table_is_empty cfg_other world_tok "tok-123").
  - left. vm_compute. discriminate.
  - vm_compute. reflexivity.
  - vm_compute. reflexivity.
Defined.

(** ** Rebinding and back *)

(** X9: rebinding to another table name and back loses no data.  With a
    record stored in the table of a first configuration, constructing a
    repository for a second configuration with another table name,
    whatever comes of it, and then constructing one for the first
    configuration again, finds the record: that construction returns after
    its status request and [get] returns the stored value. *)
Theorem data_survives_rebinding
    (config1 config2 : DynamoDBConfig) (k v : string) (w : World) :
  connected w = addr_of (Meta_of_config config1) ->
  ready w = true ->
  bound_items w !! k = Some v ->
  table_name config1 <> table_name config2 ->
  let w1 := snd (DynamoDBRepository.__init__ config2 w) in
  quiet 2 (faults w1) = true ->
  exists r w2 w3,
    DynamoDBRepository.__init__ config1 w1 = (Ok r, w2)
    /\ requests_of (DynamoDBRepository.__init__ config1) w1
       = [DescribeTable (addr_of (Meta_of_config config1))]
    /\ DynamoDBRepository.get r k w2 = (Ok (Some v), w3).
Proof.
  intros Hcw Hr Hk Hne w1 Hq. set (a1 := addr_of (Meta_of_config config1)) in *.
  apply ready_inv in Hr as [its Hits]. rewrite Hcw in Hits.
  unfold bound_items in Hk. rewrite Hcw, Hits in Hk. cbn [items] in Hk.
  destruct (init_shape config2 w) as (_ & Hc2 & _ & Ht). fold w1 in Hc2, Ht.
  pose proof (connected_name (with_meta (Meta_of_config config2) w)) as Hn2.
  cbn [meta with_meta Meta_table_name Meta_of_config] in Hn2.
  assert (Hits1 : tables w1 !! a1 = Some (mkTable ACTIVE its)).
  { rewrite Ht; [done|]. intros E. apply Hne. by rewrite <- Hn2, <- E. }
  assert (Hc1 : connected (with_meta (Meta_of_config config1) w1) = a1).
  { apply (connected_other_name (with_meta (Meta_of_config config1) w1) _ Hc2).
    cbn. rewrite Hn2. congruence. }
  apply quiet_step in Hq as [Hq1 Hq2].
  assert (Hn : forall fs, faults w1 <> Some ResourceNotFound :: fs) by (intros; apply Hq1).
  assert (Hf : first_fault 1 (faults w1) = None).
  { destruct (faults w1) as [|[e|] fs'] eqn:E; try done. by destruct (Hq1 e fs'). }
  rewrite <- Hc1 in Hits1.
  pose proof (init_existing_run config1 w1 _ Hits1 Hn) as Hrun.
  rewrite Hf, Hc1 in Hrun. cbn [outcome_of_fault] in Hrun. rewrite Hrun.
  eexists _, _, _. split; [done|]. split; [apply requests_of_app; by rewrite Hrun|].
  rewrite get_served.
  - unfold bound_items. autorewrite with world. cbn [tables sent connect with_connection with_meta].
    rewrite Hits1. cbn [items]. by rewrite Hk.
  - unfold ready. autorewrite with world. cbn [tables sent connect with_connection with_meta].
    by rewrite Hits1.
  - exact Hq2.
Qed.

Lemma data_survives_rebinding_witness :
  exists r w2 w3,
    DynamoDBRepository.__init__ cfg_sessions
      (snd (DynamoDBRepository.__init__ cfg_other world_tok)) = (Ok r, w2)
    /\ requests_of (DynamoDBRepository.__init__ cfg_sessions)
         (snd (DynamoDBRepository.__init__ cfg_other world_tok))
       = [DescribeTable (addr_of (Meta_of_config cfg_sessions))]
    /\ DynamoDBRepository.get r "tok-123" w2 = (Ok (Some "u1"), w3).
Proof.
  apply (data_survives_rebinding cfg_sessions cfg_other "tok-123" "u1" world_tok);
    try (vm_compute; reflexivity).
  vm_compute. discriminate.
Defined.
